(** * gin-logrus: request logging and panic recovery middleware

    A shallow embedding of [logging.go] (package [gin_logrus]) and of the
    parts of gin, logrus, net/url, time and runtime that the two
    middlewares call.

    - Go's [interface{}] values are the inductive type [any]; a
      [map[string]interface{}] (and so [logrus.Fields] and gin's [Keys])
      is a [gmap string any].
    - The [*gin.Context] shared by the whole handler chain, the records
      handed to the logger, and the number of clock readings taken so far
      form the [State] that every handler transforms.
    - A handler either returns or panics with a value ([Outcome]); the
      deferred [recover()] of the recovery middleware is a match on it.
    - [time.Now()] reads an oracle [clock]: the k-th reading of the system
      clock, wall and monotonic. *)

From Stdlib Require Import ZArith QArith_base Lia Ascii.
From stdpp Require Import gmap strings list fin_maps.

#[local] Set Warnings "-register-all".
#[local] Open Scope Z_scope.

(** ** Text helpers *)

Definition newline : string := String "010"%char "".

Definition digit (d : Z) : ascii := ascii_of_nat (48 + Z.to_nat d).

(** Decimal digits of a non-negative integer, most significant first. *)
Fixpoint utoa_aux (fuel : nat) (u : Z) (acc : string) : string :=
  match fuel with
  | O => acc
  | S fuel' =>
      let acc' := String (digit (u mod 10)) acc in
      if u <? 10 then acc' else utoa_aux fuel' (u / 10) acc'
  end.

Definition utoa (u : Z) : string := utoa_aux (S (Z.to_nat (Z.log2 u))) u "".

Fixpoint zeros (n : nat) : string :=
  match n with O => "" | S n' => String "0"%char (zeros n') end.

(** [time.appendInt]: the decimal form of [x], a minus sign first when it
    is negative, its digits zero-padded on the left to [width]. Also
    [fmt]'s [%0<width>d] on a non-negative argument. *)
Definition appendInt (x : Z) (width : nat) : string :=
  let u := Z.abs x in
  let ds := utoa u in
  (if x <? 0 then "-" else "") +:+ zeros (width - String.length ds) +:+ ds.

(** [s] occurs in [t] as a contiguous run. *)
Definition substring_of (s t : string) : Prop :=
  ∃ pre post : string, t = pre +:+ s +:+ post.

(** ** Dynamic values: Go's [interface{}] *)

Inductive any : Type :=
  | ANil                                (* the nil interface value *)
  | AString (s : string)                (* string *)
  | AInt (n : Z)                        (* int, int64 *)
  | ASeconds (ns : Z)                   (* float64: [Duration(ns).Seconds()] *)
  | AError (msg : string)               (* an error, [msg] its Error() text *)
  | AMap (m : gmap string any)          (* map[string]interface{} *)
  | ANamed (ty : string) (v : any).     (* a value of another (named) type,
                                           e.g. gin.H or a struct *)

(** [v.(string)] *)
Definition assert_string (v : option any) : option string :=
  match v with Some (AString s) => Some s | _ => None end.

(** [v.(map[string]interface{})]: only the unnamed map type itself passes. *)
Definition assert_map (v : any) : option (gmap string any) :=
  match v with AMap m => Some m | _ => None end.

(** [logrus.Fields] *)
Abbreviation Fields := (gmap string any).

(** ** package time *)

(** A [*time.Location]: the offset, in seconds east of UTC, in effect at a
    Unix second. *)
Definition Location : Type := Z → Z.

Definition UTC : Location := λ _, 0.

(** A [time.Time]: the wall clock instant (Unix seconds, and nanoseconds
    within the second, 0 to 999999999), the monotonic clock reading when
    the value carries one, and the location the value is presented in. *)
Record Time : Type := mkTime {
  unix_sec : Z;
  nsec : Z;
  mono : option Z;
  loc : Location;
}.

(** Proleptic Gregorian date of a day number counted from 1970-01-01. *)
Definition civil_from_days (z : Z) : Z * Z * Z :=
  let z := z + 719468 in
  let era := z / 146097 in
  let doe := z - era * 146097 in
  let yoe := (doe - doe / 1460 + doe / 36524 - doe / 146096) / 365 in
  let doy := doe - (365 * yoe + yoe / 4 - yoe / 100) in
  let mp := (5 * doy + 2) / 153 in
  let d := doy - (153 * mp + 2) / 5 + 1 in
  let m := if mp <? 10 then mp + 3 else mp - 9 in
  let y := yoe + era * 400 + (if m <=? 2 then 1 else 0) in
  (y, m, d).

(** Seconds since 1970-01-01T00:00:00 on the clock face of the value's own
    location: what [Time.Format] prints. *)
Definition local_sec (t : Time) : Z := unix_sec t + loc t (unix_sec t).

(** Milliseconds on that clock face, the fraction truncated. *)
Definition local_millis (t : Time) : Z := local_sec t * 1000 + nsec t / 1000000.

(** The layout "2006-01-02T15:04:05.000Z" applied to a clock face given in
    milliseconds: year, month, day, hour, minute, second, three fractional
    digits (truncated), and the layout's trailing literal [Z]. In a Go
    layout only "Z07", "Z07:00" and the like stand for a zone; a lone "Z"
    is copied to the output as it is. *)
Definition render_millis (ms : Z) : string :=
  let abs := ms / 1000 in
  let '(y, m, d) := civil_from_days (abs / 86400) in
  let secs := abs mod 86400 in
  appendInt y 4 +:+ "-" +:+ appendInt m 2 +:+ "-" +:+ appendInt d 2 +:+ "T"
  +:+ appendInt (secs / 3600) 2 +:+ ":" +:+ appendInt (secs mod 3600 / 60) 2
  +:+ ":" +:+ appendInt (secs mod 60) 2
  +:+ "." +:+ appendInt (ms mod 1000) 3 +:+ "Z".

(** [t.Format("2006-01-02T15:04:05.000Z")]. No conversion to UTC takes
    place: the fields are those of [t] in its own location. *)
Definition Format (t : Time) : string := render_millis (local_millis t).

(** [t.UTC()] *)
Definition Time_UTC (t : Time) : Time :=
  {| unix_sec := unix_sec t; nsec := nsec t; mono := None; loc := UTC |}.

(** A [time.Duration]: int64 nanoseconds. Differences that leave the
    range saturate. *)
Definition maxDuration : Z := 2 ^ 63 - 1.
Definition minDuration : Z := - 2 ^ 63.

Definition saturate (d : Z) : Z := Z.max minDuration (Z.min maxDuration d).

Definition wall_ns (t : Time) : Z := unix_sec t * 1000000000 + nsec t.

(** [now.Sub(start)] where [now] was just read from the clock: the
    difference of the monotonic readings when [start] carries one (the
    case [time.Since] takes first), of the wall clock instants otherwise. *)
Definition Sub (now start : Time) : Z :=
  match mono start, mono now with
  | Some m0, Some m1 => saturate (m1 - m0)
  | _, _ => saturate (wall_ns now - wall_ns start)
  end.

(** ** Byte strings *)

Fixpoint str_take (n : nat) (s : string) : string :=
  match n, s with
  | S n', String a s' => String a (str_take n' s')
  | _, _ => ""
  end.

Fixpoint str_drop (n : nat) (s : string) : string :=
  match n, s with
  | S n', String _ s' => str_drop n' s'
  | _, _ => s
  end.

(** [strings.LastIndexByte], [None] for Go's -1. *)
Fixpoint LastIndexByte (s : string) (c : ascii) : option nat :=
  match s with
  | "" => None
  | String a s' =>
      match LastIndexByte s' c with
      | Some i => Some (S i)
      | None => if Ascii.eqb a c then Some O else None
      end
  end.

Definition HasPrefix (s p : string) : bool :=
  String.eqb (str_take (String.length p) s) p.

Definition HasSuffix (s p : string) : bool :=
  String.eqb (str_drop (String.length s - String.length p) s) p
  && (String.length p <=? String.length s)%nat.

Definition is_digit (b : ascii) : bool :=
  (48 <=? nat_of_ascii b)%nat && (nat_of_ascii b <=? 57)%nat.

Fixpoint all_digits (s : string) : bool :=
  match s with
  | "" => true
  | String b s' => is_digit b && all_digits s'
  end.

(** ** package net/url *)

Module url.

Record URL : Type := mkURL {
  Scheme : string;
  Host : string;          (* host or host:port *)
  Path : string;
  RawQuery : string;      (* encoded query values, without '?' *)
  Fragment : string;      (* fragment for references, without '#' *)
}.

(** A port is empty, or a colon followed by digits only. *)
Definition validOptionalPort (port : string) : bool :=
  match port with
  | "" => true
  | String c rest => Ascii.eqb c ":"%char && all_digits rest
  end.

(** Splits host:port at the last colon when what follows is a valid
    port, and strips the square brackets of an IPv6 literal. *)
Definition splitHostPort (hostPort : string) : string * string :=
  let '(host, port) :=
    match LastIndexByte hostPort ":"%char with
    | Some colon =>
        if validOptionalPort (str_drop colon hostPort)
        then (str_take colon hostPort, str_drop (S colon) hostPort)
        else (hostPort, "")
    | None => (hostPort, "")
    end in
  if HasPrefix host "[" && HasSuffix host "]"
  then (str_take (String.length host - 2) (str_drop 1 host), port)
  else (host, port).

Definition Hostname (u : URL) : string := fst (splitHostPort (Host u)).
Definition Port (u : URL) : string := snd (splitHostPort (Host u)).

End url.

(** ** package go.opentelemetry.io/otel: codes and trace *)

Module codes.
Inductive Code : Type := Unset | Error | Ok.
End codes.

Module trace.

(** The span found in a request's [context.Context]. When the context
    carries none, [SpanFromContext] hands out a span whose span context
    is not valid. *)
Record Span : Type := mkSpan {
  IsValid : bool;
  Status : codes.Code * string;
}.

Definition SetStatus (code : codes.Code) (description : string) (sp : Span) : Span :=
  {| IsValid := IsValid sp; Status := (code, description) |}.

End trace.

(** ** package net/http *)

Module http.

Definition StatusInternalServerError : Z := 500.

Record Request : Type := mkRequest {
  Method : string;
  URL : url.URL;
  Proto : string;                       (* "HTTP/1.1" *)
  Header : gmap string (list string);
  ContentLength : Z;                    (* -1 when unknown *)
  Host : string;
  Span : trace.Span;                    (* the span of [r.Context()] *)
}.

(** [Header.Get]: the first value under the key, the empty string when
    there is none. *)
Definition Get (h : gmap string (list string)) (key : string) : string :=
  match h !! key with
  | Some (v :: _) => v
  | _ => ""
  end.

Definition Referer (r : Request) : string := Get (Header r) "Referer".
Definition UserAgent (r : Request) : string := Get (Header r) "User-Agent".

Definition with_Span (sp : trace.Span) (r : Request) : Request :=
  {| Method := Method r; URL := URL r; Proto := Proto r; Header := Header r;
     ContentLength := ContentLength r; Host := Host r; Span := sp |}.

End http.

(** ** package github.com/gin-gonic/gin *)

Module gin.

Definition noWritten : Z := -1.
Definition defaultStatus : Z := 200.
Definition abortIndex : Z := 63.

(** gin's [responseWriter]: the status to send (or sent), and the number
    of body bytes written so far, [noWritten] until the header goes
    out. *)
Record responseWriter : Type := mkWriter {
  size : Z;
  status : Z;
}.

Definition Written (w : responseWriter) : bool := negb (size w =? noWritten).

(** Changes the pending status; once the header is out the call is
    dropped (gin prints a debug warning). *)
Definition WriteHeader (code : Z) (w : responseWriter) : responseWriter :=
  if (0 <? code) && negb (status w =? code) then
    if Written w then w else {| size := size w; status := code |}
  else w.

(** Forces the header out if it is not yet. *)
Definition WriteHeaderNow (w : responseWriter) : responseWriter :=
  if negb (Written w) then {| size := 0; status := status w |} else w.

(** [Write]: the header first when needed, then [n] more body bytes. *)
Definition Write (n : Z) (w : responseWriter) : responseWriter :=
  let w := WriteHeaderNow w in {| size := size w + n; status := status w |}.

(** One entry of [c.Errors]: the text of the wrapped error and, when
    the metadata is not nil, its [%v] form. *)
Record Error : Type := mkError {
  Err : string;
  Meta : option string;
}.

Record Context : Type := mkContext {
  Request : http.Request;
  Writer : responseWriter;
  Keys : gmap string any;
  Errors : list Error;
  index : Z;
}.

(** [c.Get(key)]: the value and whether the key is there, as one
    option. *)
Definition Get (c : Context) (key : string) : option any := Keys c !! key.

Definition filterFlags (content : string) : string :=
  (fix go (s : string) : string :=
     match s with
     | "" => ""
     | String ch s' =>
         if Ascii.eqb ch " "%char || Ascii.eqb ch ";"%char then ""
         else String ch (go s')
     end) content.

Definition ContentType (c : Context) : string :=
  filterFlags (http.Get (http.Header (Request c)) "Content-Type").

(** [errorMsgs.String]: one numbered line per error, then a line for
    its metadata when it has some. *)
Fixpoint errors_from (i : nat) (a : list Error) : string :=
  match a with
  | [] => ""
  | msg :: rest =>
      "Error #" +:+ appendInt (Z.of_nat (S i)) 2 +:+ ": " +:+ Err msg +:+ newline
      +:+ match Meta msg with
          | Some m => "     Meta: " +:+ m +:+ newline
          | None => ""
          end
      +:+ errors_from (S i) rest
  end.

Definition Errors_String (a : list Error) : string := errors_from 0 a.

Definition with_Writer (w : responseWriter) (c : Context) : Context :=
  {| Request := Request c; Writer := w; Keys := Keys c; Errors := Errors c;
     index := index c |}.

Definition with_Request (r : http.Request) (c : Context) : Context :=
  {| Request := r; Writer := Writer c; Keys := Keys c; Errors := Errors c;
     index := index c |}.

Definition Status (code : Z) (c : Context) : Context :=
  with_Writer (WriteHeader code (Writer c)) c.

Definition Abort (c : Context) : Context :=
  {| Request := Request c; Writer := Writer c; Keys := Keys c;
     Errors := Errors c; index := abortIndex |}.

Definition AbortWithStatus (code : Z) (c : Context) : Context :=
  let c := Status code c in
  let c := with_Writer (WriteHeaderNow (Writer c)) c in
  Abort c.

End gin.

(** ** package github.com/sirupsen/logrus *)

Module logrus.

Inductive Level : Type :=
  PanicLevel | FatalLevel | ErrorLevel | WarnLevel | InfoLevel | DebugLevel | TraceLevel.

(** An [*Entry]: its fields, whether a context was attached, and, once
    it is logged, its level and message. *)
Record Entry : Type := mkEntry {
  Data : Fields;
  HasContext : bool;
  Level_ : Level;
  Message : string;
}.

(** [logger.WithFields(fields)]: a fresh entry holding a copy of the
    fields. *)
Definition Logger_WithFields (fields : Fields) : Entry :=
  {| Data := fields; HasContext := false; Level_ := PanicLevel; Message := "" |}.

(** [entry.WithFields(fields)]: the entry's fields and the new ones, a
    new one winning over an old one of the same name. *)
Definition WithFields (fields : Fields) (e : Entry) : Entry :=
  {| Data := fields ∪ Data e; HasContext := HasContext e;
     Level_ := Level_ e; Message := Message e |}.

Definition WithField (key : string) (value : any) (e : Entry) : Entry :=
  WithFields {[ key := value ]} e.

Definition WithContext (e : Entry) : Entry :=
  {| Data := Data e; HasContext := true; Level_ := Level_ e; Message := Message e |}.

(** The entry as it reaches the logger's output: level and message set. *)
Definition logged (lvl : Level) (msg : string) (e : Entry) : Entry :=
  {| Data := Data e; HasContext := HasContext e; Level_ := lvl; Message := msg |}.

End logrus.

(** ** The world a handler runs in *)

(** One reading of the system clock: the wall clock and the monotonic
    clock, both taken by [time.Now()]. *)
Record Reading : Type := mkReading {
  wall_sec : Z;
  wall_nsec : Z;
  mono_ns : Z;
}.

(** What the process is given from outside: the successive readings of the
    clock, the local time zone, and two library routines taken as they
    are: the [String] method of a URL and the [ClientIP] method of gin's
    context. *)
Class Platform : Type := {
  clock : nat → Reading;
  Local : Location;
  URL_String : url.URL → string;
  ClientIP : gin.Context → string;
}.

(** The state a handler acts on: the context [c] of the request, the
    entries the logger has received so far (oldest first), how many times
    the clock has been read, and the goroutine serving the request: its
    number and the frames a traceback of it would list at this point. *)
Record State : Type := mkState {
  ctx : gin.Context;
  sink : list logrus.Entry;
  ticks : nat;
  goid : Z;
  frames : string;
}.

(** How a call ends: it returns, or it panics and [recover()] in a
    deferred call yields the value [v]. From Go 1.21 on [v] is never
    nil: [panic(nil)] reaches [recover()] as a [*runtime.PanicNilError].
    Before, [recover()] yields nil for it, which the middleware cannot
    tell from no panic at all. *)
Inductive Outcome : Type :=
  | Returned
  | Panicked (v : any).

(** A [gin.HandlerFunc], and also the rest of the chain that [c.Next()]
    runs. The state is the one left behind, also by a call that panics. *)
Definition HandlerFunc : Type := State → Outcome * State.

(** Straight-line code that cannot panic. *)
Definition M (A : Type) : Type := State → A * State.

#[export] Instance M_ret : MRet M := λ A a s, (a, s).
#[export] Instance M_bind : MBind M := λ A B f m s, let '(a, s') := m s in f a s'.

Definition get_ctx : M gin.Context := λ s, (ctx s, s).

Definition modify_ctx (f : gin.Context → gin.Context) : M unit := λ s,
  (tt, {| ctx := f (ctx s); sink := sink s; ticks := ticks s;
          goid := goid s; frames := frames s |}).

(** [entry.Log(level, msg)], behind [entry.Info], [entry.Error] and
    [entry.Errorf]: the entry is handed to the logger, here the end of
    [sink]. What the logger then does with it (its level threshold, its
    formatter, its hooks) is the logger's business and not modelled. *)
Definition Log (lvl : logrus.Level) (msg : string) (e : logrus.Entry) : M unit := λ s,
  (tt, {| ctx := ctx s; sink := sink s ++ [logrus.logged lvl msg e];
          ticks := ticks s; goid := goid s; frames := frames s |}).

Section Middleware.
Context `{Platform}.

Definition time_of (r : Reading) : Time :=
  {| unix_sec := wall_sec r; nsec := wall_nsec r; mono := Some (mono_ns r);
     loc := Local |}.

(** [time.Now()]: the next reading of the clock, in the local zone. *)
Definition time_Now : M Time := λ s,
  (time_of (clock (ticks s)),
   {| ctx := ctx s; sink := sink s; ticks := S (ticks s);
      goid := goid s; frames := frames s |}).

(** [time.Since(t)] is [time.Now().Sub(t)]. *)
Definition time_Since (t : Time) : M Z :=
  now ← time_Now; mret (Sub now t).

(** ** package runtime *)

(** What a traceback of the running goroutine prints: its header line,
    then its frames. *)
Definition traceback (s : State) : string :=
  "goroutine " +:+ utoa (goid s) +:+ " [running]:" +:+ newline +:+ frames s.

(** [make([]byte, n)] *)
Fixpoint make_bytes (n : nat) : string :=
  match n with O => "" | S n' => String "000"%char (make_bytes n') end.

(** [runtime.Stack(buf, false)]: formats the traceback of the calling
    goroutine into [buf] and returns the number of bytes written, never
    more than [buf] holds. The result here is that number and the
    buffer after the call. *)
Definition runtime_Stack (buf : string) : M (nat * string) := λ s,
  let text := traceback s in
  let n := Nat.min (String.length buf) (String.length text) in
  ((n, str_take n text +:+ str_drop n buf), s).

(** ** logging.go *)

(** UserClaimsKey is the key for user claims in context *)
Definition UserClaimsKey : string := "userClaims".

(** [generateLogFields(c, start)]; [c] is the context of the state. *)
Definition generateLogFields (start : Time) : M Fields :=
  (* Calculate latency *)
  latency ← time_Since start;
  c ← get_ctx;
  now ← time_Now;
  let r := gin.Request c in
  let u := http.URL r in
  let fields : Fields := list_to_map [
    ("url.domain",                AString (http.Host r));
    ("url.fragment",              AString (url.Fragment u));
    ("url.full",                  AString (URL_String u));
    ("url.original",              AString (URL_String u));
    ("url.path",                  AString (url.Path u));
    ("url.port",                  AString (url.Port u));
    ("url.query",                 AString (url.RawQuery u));
    ("url.registered_domain",     AString (url.Hostname u));
    ("url.scheme",                AString (url.Scheme u));
    ("http.request.bytes",        AInt (http.ContentLength r));
    ("http.request.method",       AString (http.Method r));
    ("http.request.mime_type",    AString (gin.ContentType c));
    ("http.request.referrer",     AString (http.Referer r));
    ("http.response.body.bytes",  AInt (gin.size (gin.Writer c)));
    ("http.response.status_code", AInt (gin.status (gin.Writer c)));
    ("http.version",              AString (http.Proto r));
    ("client.address",            AString (ClientIP c));
    ("client.ip",                 AString (ClientIP c));
    ("server.address",            AString (http.Host r));
    ("server.ip",                 AString (http.Host r));
    ("user_agent.original",       AString (http.UserAgent r));
    ("event.duration",            ASeconds latency);
    ("event.start",               AString (Format start));
    ("event.end",                 AString (Format now))
  ] in
  (* If user exists in context, add user ID to fields. *)
  mret
    match gin.Get c UserClaimsKey with
    | Some user =>
        (* Check if it's a map with string keys and interface{} values *)
        match assert_map user with
        | Some userMap =>
            match assert_string (userMap !! "UserID") with
            | Some userID => <["user.id" := AString userID]> fields
            | None => fields
            end
        | None => fields
        end
    | None => fields
    end.

(** GinLogrus is a middleware function that uses Logrus logger instead
    of the default Gin logger. The handler it returns is modelled: [c]
    is the context of the state, [logger] the state's sink, and [next]
    what [c.Next()] runs. There is no deferred call: a panic of the
    chain passes through. *)
Definition GinLogrus (next : HandlerFunc) : HandlerFunc := λ s,
  (* Start timer *)
  let '(start, s) := time_Now s in
  (* Process request *)
  match next s with
  | (Panicked v, s) => (Panicked v, s)
  | (Returned, s) =>
      (Returned,
       snd ((
         (* Generate log fields *)
         fields ← generateLogFields start;
         (* Create log entry *)
         let entry := logrus.Logger_WithFields fields in
         c ← get_ctx;
         (* If user exists in context, add user ID to log entry. *)
         let entry :=
           match gin.Get c UserClaimsKey with
           | Some user =>
               match assert_map user with
               | Some userMap =>
                   match assert_string (userMap !! "UserID") with
                   | Some userID =>
                       logrus.WithField "user.id" (AString userID)
                         (logrus.WithContext entry)
                   | None => entry
                   end
               | None => entry
               end
           | None => entry
           end in
         if (0 <? length (gin.Errors c))%nat then
           (* Append error field if this is an erroneous request. *)
           Log logrus.ErrorLevel
             ("Request failed: " +:+ gin.Errors_String (gin.Errors c)) entry
         else
           Log logrus.InfoLevel "Request processed successfully" entry
       ) s))
  end.

(** [recover()] in the deferred call: the value of the panic under
    way, nil when there is none. *)
Definition recover (o : Outcome) : any :=
  match o with
  | Returned => ANil
  | Panicked v => v
  end.

(** The span update of the deferred call. *)
Definition mark_span (c : gin.Context) : gin.Context :=
  let span := http.Span (gin.Request c) in
  if trace.IsValid span then
    (* Set outcome *)
    gin.with_Request
      (http.with_Span (trace.SetStatus codes.Error "panic occurred" span)
         (gin.Request c)) c
  else c.

(** The body of the deferred function, [err] being what [recover()]
    returned. *)
Definition deferred (err : any) : M unit :=
  match err with
  | ANil => mret tt
  | _ =>
      start ← time_Now;
      (* Capture the stack trace *)
      let stack := make_bytes 2048 in
      '(n, stack) ← runtime_Stack stack;
      let stack := str_take n stack in
      (* Generate log fields *)
      fields ← generateLogFields start;
      (* Create log entry *)
      let entry := logrus.Logger_WithFields fields in
      (* Log as a single entry *)
      _ ← Log logrus.ErrorLevel "A panic occurred"
            (logrus.WithFields
               (<["error.message" := err]>
                  {[ "error.stack_trace" := AString stack ]})
               entry);
      _ ← modify_ctx mark_span;
      (* Optionally, you can write a response to the client *)
      modify_ctx (gin.AbortWithStatus http.StatusInternalServerError)
  end.

(** The deferred function runs when [c.Next()] has returned and when it
    has panicked; having called [recover()], the middleware returns to
    its caller in both cases. *)
Definition RecoveryWithLoggerMiddleware (next : HandlerFunc) : HandlerFunc := λ s,
  (* Process the next handler *)
  let '(o, s) := next s in
  (Returned, snd (deferred (recover o) s)).

End Middleware.

(** ** Vocabulary of the properties *)

(** Lookup in a list of pairs, the first pair of a key winning: how a
    map built from a literal answers. *)
Fixpoint alist_lookup {A : Type} (k : string) (l : list (string * A)) : option A :=
  match l with
  | [] => None
  | (k', v) :: l' => if String.eqb k' k then Some v else alist_lookup k l'
  end.

(** The attribute names every field set carries. *)
Definition required_keys : list string := [
  "url.domain"; "url.fragment"; "url.full"; "url.original"; "url.path";
  "url.port"; "url.query"; "url.registered_domain"; "url.scheme";
  "http.request.bytes"; "http.request.method"; "http.request.mime_type";
  "http.request.referrer"; "http.response.body.bytes";
  "http.response.status_code"; "http.version"; "client.address";
  "client.ip"; "server.address"; "server.ip"; "user_agent.original";
  "event.duration"; "event.start"; "event.end"
].

(** The request-scoped store holds, under "userClaims", a
    [map[string]interface{}] whose "UserID" entry is the string
    [userID]. *)
Definition well_shaped_claims (c : gin.Context) (userID : string) : Prop :=
  ∃ m : gmap string any,
    gin.Keys c !! "userClaims" = Some (AMap m) ∧ m !! "UserID" = Some (AString userID).


(** [Duration(ns).Seconds()] as an exact fraction. *)
Definition Seconds (ns : Z) : Q := Qmake ns 1000000000.

(** One millisecond, in nanoseconds: the resolution of the two
    timestamps. *)
Definition timer_resolution : Z := 1000000.

(** The monotonic clock never runs backwards. *)
Definition monotone_clock `{Platform} : Prop :=
  ∀ a b : nat, (a ≤ b)%nat → mono_ns (clock a) ≤ mono_ns (clock b).

Section Stated.
Context `{Platform}.


(** The request log as the specification words it, the message of the
    success entry in the specification's spelling. *)
Definition request_log_as_stated (next : HandlerFunc) (s : State) : Prop :=
  ∀ s', next (time_Now s).2 = (Returned, s') →
    let errs := gin.Errors (ctx s') in
    ∃ e,
      sink (GinLogrus next s).2 = sink s' ++ [e] ∧
      logrus.Data e = (generateLogFields (time_Now s).1 s').1 ∧
      (errs ≠ [] →
         logrus.Level_ e = logrus.ErrorLevel ∧
         substring_of (gin.Errors_String errs) (logrus.Message e)) ∧
      (errs = [] →
         logrus.Level_ e = logrus.InfoLevel ∧
         logrus.Message e = "request processed successfully").

(** The timing attributes as the specification words them, for an
    extraction that begins in state [s] with the start time read at
    tick [i]: the duration is not negative and differs from the
    distance of the two printed instants by no more than the
    resolution. *)
Definition timing_as_stated (i : nat) (s : State) : Prop :=
  let start := time_of (clock i) in
  let fields := (generateLogFields start s).1 in
  ∃ d ms me,
    fields !! "event.duration" = Some (ASeconds d) ∧
    fields !! "event.start" = Some (AString (render_millis ms)) ∧
    fields !! "event.end" = Some (AString (render_millis me)) ∧
    ms = local_millis start ∧
    me = local_millis (time_of (clock (S (ticks s)))) ∧
    0 ≤ d ∧
    Z.abs ((me - ms) * 1000000 - d) ≤ timer_resolution.

(** The entry that reports a fault caught in state [s], [err] being
    the recovered value. *)
Definition panic_entry (err : any) (s : State) : logrus.Entry :=
  logrus.logged logrus.ErrorLevel "A panic occurred"
    (logrus.WithFields
       (<["error.message" := err]>
          {[ "error.stack_trace" := AString (str_take 2048 (traceback s)) ]})
       (logrus.Logger_WithFields
          (generateLogFields (time_of (clock (ticks s))) (time_Now s).2).1)).

End Stated.

(** ** Sample requests, handlers and platforms *)

Definition no_span : trace.Span := trace.mkSpan false (codes.Unset, "").

(** GET https://api.example.com/v1/items?x=1 *)
Definition items_request : http.Request :=
  http.mkRequest "GET"
    (url.mkURL "https" "api.example.com" "/v1/items" "x=1" "")
    "HTTP/1.1" ∅ 0 "api.example.com" no_span.

(** A context as the engine hands it to the first handler. *)
Definition fresh_context : gin.Context :=
  gin.mkContext items_request (gin.mkWriter gin.noWritten gin.defaultStatus) ∅ [] (-1).

Definition fresh_state : State := mkState fresh_context [] 0 7 "main.handler()".

Definition set_ctx (c : gin.Context) (s : State) : State :=
  {| ctx := c; sink := sink s; ticks := ticks s; goid := goid s; frames := frames s |}.

(** The state once the clock has been read [n] times. *)
Definition at_tick (n : nat) (s : State) : State :=
  {| ctx := ctx s; sink := sink s; ticks := n; goid := goid s; frames := frames s |}.

(** A handler that answers 200 with [n] body bytes. *)
Definition answers (n : Z) : HandlerFunc := λ s,
  (Returned,
   set_ctx (gin.with_Writer (gin.Write n (gin.WriteHeader 200 (gin.Writer (ctx s)))) (ctx s)) s).

(** A handler that records an error and returns. *)
Definition records_error (msg : string) : HandlerFunc := λ s,
  let c := ctx s in
  (Returned,
   set_ctx (gin.mkContext (gin.Request c) (gin.Writer c) (gin.Keys c)
              (gin.Errors c ++ [gin.mkError msg None]) (gin.index c)) s).

(** A handler that panics at once. *)
Definition panics (v : any) : HandlerFunc := λ s, (Panicked v, s).

(** A handler that writes [n] body bytes and then panics. *)
Definition writes_then_panics (n : Z) (v : any) : HandlerFunc := λ s,
  (Panicked v, (answers n s).2).

(** An upstream handler that stores the claims, then runs [next]. *)
Definition with_claims (claims : any) (next : HandlerFunc) : HandlerFunc := λ s,
  let c := ctx s in
  next (set_ctx (gin.mkContext (gin.Request c) (gin.Writer c)
                   (<["userClaims" := claims]> (gin.Keys c))
                   (gin.Errors c) (gin.index c)) s).

(** scheme://host/path?query, enough for the sample requests. *)
Definition sample_URL_String (u : url.URL) : string :=
  url.Scheme u +:+ "://" +:+ url.Host u +:+ url.Path u +:+
  (if String.eqb (url.RawQuery u) "" then "" else "?" +:+ url.RawQuery u).

(** 2024-01-15T12:00:00.250 UTC and one second more per reading, the
    two clocks in step. *)
Definition steady_clock (k : nat) : Reading :=
  mkReading (1705320000 + Z.of_nat k) 250000000 (Z.of_nat k * 1000000000).

(** A host whose local zone is UTC. *)
Definition utc_platform : Platform :=
  {| clock := steady_clock; Local := UTC;
     URL_String := sample_URL_String; ClientIP := λ _, "203.0.113.7" |}.

(** A host whose local zone is one hour east of UTC. *)
Definition paris_platform : Platform :=
  {| clock := steady_clock; Local := λ _, 3600;
     URL_String := sample_URL_String; ClientIP := λ _, "203.0.113.7" |}.

(** A host whose wall clock is set back by ten seconds after the first
    reading, the monotonic clock running on: readings one second apart. *)
Definition stepped_clock (k : nat) : Reading :=
  match k with
  | O => mkReading 1705320010 0 0
  | S _ => mkReading (1705320000 + Z.of_nat k) 0 (Z.of_nat k * 1000000000)
  end.

Definition stepped_platform : Platform :=
  {| clock := stepped_clock; Local := UTC;
     URL_String := sample_URL_String; ClientIP := λ _, "203.0.113.7" |}.

(** ** Proof steps shared by the extraction lemmas *)

Ltac unfold_extraction :=
  unfold generateLogFields, time_Since, mbind, M_bind, mret, M_ret, time_Now, get_ctx;
  cbn [fst snd ctx ticks].

(* One case per shape of the value under "userClaims". *)
Ltac split_identity :=
  match goal with
  | |- context [gin.Get ?c UserClaimsKey] =>
      let Hget := fresh "Hget" in
      let Hid := fresh "Hid" in
      destruct (gin.Get c UserClaimsKey) as [[| | | | |?m|]|] eqn:Hget;
      cbn [assert_map];
      [ | | | | | destruct (m !! "UserID") as [[| ?uid | | | | |]|] eqn:Hid;
                  cbn [assert_string] | |];
      unfold gin.Get, UserClaimsKey in Hget
  end.

(** * Properties *)

(** ** Byte strings *)

Lemma string_app_cons (x : ascii) (a b : string) :
  String x a +:+ b = String x (a +:+ b).
Proof. reflexivity. Qed.

Lemma string_app_nil_r (a : string) : a +:+ "" = a.
Proof. induction a as [|x a IH]; [done | by rewrite string_app_cons, IH]. Qed.

Lemma string_app_assoc (a b c : string) : (a +:+ b) +:+ c = a +:+ (b +:+ c).
Proof. induction a as [|x a IH]; [done | by rewrite !string_app_cons, IH]. Qed.

Lemma length_string_app (a b : string) :
  String.length (a +:+ b) = (String.length a + String.length b)%nat.
Proof. induction a as [|x a IH]; [done | rewrite string_app_cons; simpl; by rewrite IH]. Qed.

Lemma length_str_take (n : nat) (s : string) :
  String.length (str_take n s) = Nat.min n (String.length s).
Proof.
  revert s; induction n as [|n IH]; intros [|a s]; simpl; try done.
  by rewrite IH.
Qed.

Lemma str_take_app_exact (a b : string) :
  str_take (String.length a) (a +:+ b) = a.
Proof.
  induction a as [|x a IH]; [by destruct b |].
  rewrite string_app_cons; simpl. by rewrite IH.
Qed.

Lemma str_take_all (n : nat) (s : string) :
  (String.length s ≤ n)%nat → str_take n s = s.
Proof.
  revert s; induction n as [|n IH]; intros [|a s] Hle; simpl in *; try done; try lia.
  rewrite IH; [done | lia].
Qed.

Lemma str_take_min (n : nat) (s : string) :
  str_take (Nat.min n (String.length s)) s = str_take n s.
Proof.
  destruct (Nat.le_ge_cases n (String.length s)) as [Hle|Hge].
  - by rewrite Nat.min_l.
  - rewrite Nat.min_r by done. by rewrite !str_take_all.
Qed.

Lemma length_make_bytes (n : nat) : String.length (make_bytes n) = n.
Proof. induction n as [|n IH]; simpl; [done | by rewrite IH]. Qed.

Lemma substring_of_refl (s : string) : substring_of s s.
Proof.
  exists "", "". by rewrite string_app_nil_r.
Qed.

Lemma substring_of_app_r (s t pre : string) :
  substring_of s t → substring_of s (pre +:+ t).
Proof.
  intros (p & q & ->). exists (pre +:+ p), q. by rewrite string_app_assoc.
Qed.

Lemma substring_of_app_l (s t post : string) :
  substring_of s t → substring_of s (t +:+ post).
Proof.
  intros (p & q & ->). exists p, (q +:+ post). by rewrite !string_app_assoc.
Qed.

(** ** Maps built from literals *)

Lemma lookup_list_to_map_alist {A : Type} (l : list (string * A)) (k : string) :
  (list_to_map l : gmap string A) !! k = alist_lookup k l.
Proof.
  induction l as [|[k' v] l IH]; simpl.
  - apply lookup_empty.
  - destruct (String.eqb_spec k' k) as [->|Hne].
    + apply lookup_insert_eq.
    + rewrite lookup_insert_ne by done. apply IH.
Qed.

(* A lookup of a fixed name in the field set. *)
Ltac solve_lookup :=
  rewrite ?lookup_insert_ne by done;
  rewrite lookup_list_to_map_alist; reflexivity.

(** ** The response writer *)


(** ** Time *)

Lemma saturate_id (d : Z) : minDuration ≤ d ≤ maxDuration → saturate d = d.
Proof. unfold saturate, minDuration, maxDuration. lia. Qed.

Lemma saturate_nonneg (d : Z) : 0 ≤ d → 0 ≤ saturate d.
Proof. unfold saturate, minDuration, maxDuration. lia. Qed.

(** A value whose location is UTC prints as its UTC instant. *)
Lemma Format_in_UTC (t : Time) : loc t (unix_sec t) = 0 → Format t = Format (Time_UTC t).
Proof.
  intros Hz. unfold Format, local_millis, local_sec, Time_UTC, UTC; simpl.
  by rewrite Hz.
Qed.

(** ** Field extraction *)

Section Extraction.
Context `{Platform}.

(** Extraction reads the clock twice and touches nothing else. *)
Lemma generateLogFields_state (start : Time) (s : State) :
  (generateLogFields start s).2 =
    {| ctx := ctx s; sink := sink s; ticks := S (S (ticks s));
       goid := goid s; frames := frames s |}.
Proof. reflexivity. Qed.

Lemma lookup_event_duration (start : Time) (s : State) :
  (generateLogFields start s).1 !! "event.duration" =
    Some (ASeconds (Sub (time_of (clock (ticks s))) start)).
Proof. unfold_extraction. split_identity; solve_lookup. Qed.

Lemma lookup_event_start (start : Time) (s : State) :
  (generateLogFields start s).1 !! "event.start" = Some (AString (Format start)).
Proof. unfold_extraction. split_identity; solve_lookup. Qed.

Lemma lookup_event_end (start : Time) (s : State) :
  (generateLogFields start s).1 !! "event.end" =
    Some (AString (Format (time_of (clock (S (ticks s)))))).
Proof. unfold_extraction. split_identity; solve_lookup. Qed.

Lemma lookup_user_id (start : Time) (s : State) :
  (generateLogFields start s).1 !! "user.id" =
    match gin.Keys (ctx s) !! "userClaims" with
    | Some (AMap m) =>
        match m !! "UserID" with
        | Some (AString userID) => Some (AString userID)
        | _ => None
        end
    | _ => None
    end.
Proof.
  unfold_extraction. split_identity; rewrite Hget, ?Hid;
    first [ apply lookup_insert_eq | solve_lookup ].
Qed.

Lemma dom_generateLogFields (start : Time) (s : State) :
  dom (generateLogFields start s).1 =
    list_to_set required_keys ∪
    match (generateLogFields start s).1 !! "user.id" with
    | Some _ => {[ "user.id" ]}
    | None => ∅
    end.
Proof.
  rewrite lookup_user_id.
  unfold_extraction. split_identity; rewrite Hget, ?Hid;
    rewrite ?dom_insert_L, dom_list_to_map_L; cbn [fmap list_fmap fst];
    fold required_keys;
    by rewrite ?(right_id_L ∅ (∪)), ?(comm_L (∪) {[ "user.id" ]}).
Qed.

Lemma well_shaped_lookup (start : Time) (s : State) (userID : string) :
  (generateLogFields start s).1 !! "user.id" = Some (AString userID)
  ↔ well_shaped_claims (ctx s) userID.
Proof.
  rewrite lookup_user_id. unfold well_shaped_claims. split.
  - destruct (gin.Keys (ctx s) !! "userClaims") as [[| | | | |m|]|]; try done.
    destruct (m !! "UserID") as [[| uid | | | | |]|] eqn:Hid; try done.
    intros [= ->]. by exists m.
  - intros (m & -> & ->). done.
Qed.

Lemma user_id_is_string (start : Time) (s : State) (v : any) :
  (generateLogFields start s).1 !! "user.id" = Some v →
  ∃ userID : string, v = AString userID.
Proof.
  rewrite lookup_user_id.
  destruct (gin.Keys (ctx s) !! "userClaims") as [[| | | | |m|]|]; try done.
  destruct (m !! "UserID") as [[| uid | | | | |]|]; try done.
  intros [= <-]. by exists uid.
Qed.

Lemma no_claims_no_user_id (start : Time) (s : State) :
  (¬ ∃ userID : string, well_shaped_claims (ctx s) userID) →
  (generateLogFields start s).1 !! "user.id" = None.
Proof.
  intros Hnone.
  destruct ((generateLogFields start s).1 !! "user.id") as [v|] eqn:Hv; [| done].
  exfalso. apply Hnone.
  destruct (user_id_is_string _ _ _ Hv) as [userID ->].
  exists userID. by apply (well_shaped_lookup start).
Qed.

(** C3: the field set has a [user.id] attribute exactly when the
    request-scoped store holds, under "userClaims", a
    [map[string]interface{}] with a string under "UserID", and the
    attribute is then that string; with any other shape there (no key,
    a value that is not such a map, a map without a string "UserID")
    there is no [user.id], and extraction still returns its map. *)
Theorem user_id_iff_well_shaped_claims (start : Time) (s : State) :
  let fields := (generateLogFields start s).1 in
  (∀ userID : string,
      fields !! "user.id" = Some (AString userID) ↔ well_shaped_claims (ctx s) userID) ∧
  (∀ v : any, fields !! "user.id" = Some v → ∃ userID : string, v = AString userID) ∧
  ((¬ ∃ userID : string, well_shaped_claims (ctx s) userID) → fields !! "user.id" = None).
Proof.
  cbv zeta. split_and!.
  - intros userID. apply well_shaped_lookup.
  - apply user_id_is_string.
  - apply no_claims_no_user_id.
Qed.





Lemma required_keys_distinct : NoDup required_keys ∧ "user.id" ∉ required_keys.
Proof.
  split.
  - apply (bool_decide_unpack _). by vm_compute.
  - apply (bool_decide_unpack _). by vm_compute.
Qed.

(** C10: the names in the map returned by field extraction are the
    twenty-four fixed attribute names, all distinct, together with
    [user.id] exactly when well-shaped identity claims are in the
    request-scoped store; no other name appears. *)
Theorem field_names_exact (start : Time) (s : State) :
  let fields := (generateLogFields start s).1 in
  (length required_keys = 24%nat ∧ NoDup required_keys ∧ "user.id" ∉ required_keys) ∧
  ((∃ userID : string, well_shaped_claims (ctx s) userID) →
     dom fields = list_to_set required_keys ∪ {[ "user.id" ]}) ∧
  ((¬ ∃ userID : string, well_shaped_claims (ctx s) userID) →
     dom fields = list_to_set required_keys) ∧
  (∀ k : string, k ∈ dom fields → k ∈ required_keys ∨ k = "user.id").
Proof.
  cbv zeta. split_and!.
  - reflexivity.
  - apply required_keys_distinct.
  - apply required_keys_distinct.
  - intros [userID Hw]. apply (well_shaped_lookup start) in Hw.
    by rewrite dom_generateLogFields, Hw.
  - intros Hnone.
    rewrite dom_generateLogFields, (no_claims_no_user_id start s Hnone).
    by rewrite (right_id_L ∅ (∪)).
  - intros k. rewrite dom_generateLogFields.
    rewrite elem_of_union, elem_of_list_to_set.
    intros [Hk | Hk]; [by left |].
    destruct (_ !! "user.id"); [right | ]; set_solver.
Qed.

End Extraction.

(** ** The recovery middleware *)

Section Recovery.
Context `{Platform}.

Lemma str_take_app_length (n : nat) (a b : string) :
  String.length a = n → str_take n (a +:+ b) = a.
Proof. intros <-. apply str_take_app_exact. Qed.

(** The slice [stack[:n]] is the first 2048 bytes of the traceback. *)
Lemma stack_snapshot (s : State) :
  str_take (runtime_Stack (make_bytes 2048) s).1.1
           (runtime_Stack (make_bytes 2048) s).1.2
  = str_take 2048 (traceback s).
Proof.
  unfold runtime_Stack; cbn [fst snd]. rewrite length_make_bytes.
  rewrite str_take_app_length.
  - apply str_take_min.
  - rewrite length_str_take. lia.
Qed.


Lemma deferred_fault (err : any) (s : State) :
  err ≠ ANil →
  (deferred err s).2 =
    {| ctx := gin.AbortWithStatus http.StatusInternalServerError (mark_span (ctx s));
       sink := sink s ++ [panic_entry err s];
       ticks := S (S (S (ticks s))); goid := goid s; frames := frames s |}.
Proof.
  intros Herr. unfold panic_entry. rewrite <- stack_snapshot.
  destruct err; [done | ..]; reflexivity.
Qed.


Lemma recovery_on_fault (next : HandlerFunc) (s s' : State) (v : any) :
  next s = (Panicked v, s') → v ≠ ANil →
  RecoveryWithLoggerMiddleware next s =
    (Returned,
     {| ctx := gin.AbortWithStatus http.StatusInternalServerError (mark_span (ctx s'));
        sink := sink s' ++ [panic_entry v s'];
        ticks := S (S (S (ticks s'))); goid := goid s'; frames := frames s' |}).
Proof.
  intros Hnext Hv. unfold RecoveryWithLoggerMiddleware. rewrite Hnext.
  cbn [recover]. by rewrite deferred_fault.
Qed.


Lemma panic_entry_stack_trace (err : any) (s : State) :
  logrus.Data (panic_entry err s) !! "error.stack_trace" =
    Some (AString (str_take 2048 (traceback s))).
Proof.
  unfold panic_entry, logrus.logged, logrus.WithFields; cbn [logrus.Data].
  apply lookup_union_Some_l.
  rewrite lookup_insert_ne by done. apply lookup_singleton_eq.
Qed.

(** The attributes of the field set pass into the entry unchanged. *)
Lemma panic_entry_field (err : any) (s : State) (k : string) :
  k ≠ "error.message" → k ≠ "error.stack_trace" →
  logrus.Data (panic_entry err s) !! k =
    (generateLogFields (time_of (clock (ticks s))) (time_Now s).2).1 !! k.
Proof.
  intros Hm Ht.
  unfold panic_entry, logrus.logged, logrus.WithFields, logrus.Logger_WithFields;
    cbn [logrus.Data].
  apply lookup_union_r.
  rewrite lookup_insert_ne by done. by rewrite lookup_singleton_ne.
Qed.


(** C7: in the fault path the start time handed to field extraction is
    the clock reading taken when the fault is caught, the first one
    after the chain stopped; [event.start] prints it and
    [event.duration] is the time from it to the next reading, whatever
    the time at which the request began. *)
Theorem panic_timed_from_catch (next : HandlerFunc) (s s' : State) (v : any) :
  next s = (Panicked v, s') → v ≠ ANil →
  let caught := time_of (clock (ticks s')) in
  ∃ e : logrus.Entry,
    sink (RecoveryWithLoggerMiddleware next s).2 = sink s' ++ [e] ∧
    (∀ k : string, k ≠ "error.message" → k ≠ "error.stack_trace" →
       logrus.Data e !! k = (generateLogFields caught (time_Now s').2).1 !! k) ∧
    logrus.Data e !! "event.start" = Some (AString (Format caught)) ∧
    logrus.Data e !! "event.duration" =
      Some (ASeconds (Sub (time_of (clock (S (ticks s')))) caught)).
Proof.
  intros Hnext Hv. cbv zeta. rewrite (recovery_on_fault _ _ _ _ Hnext Hv).
  cbn [snd sink]. exists (panic_entry v s'). split_and!.
  - done.
  - intros k. apply panic_entry_field.
  - rewrite panic_entry_field by done. apply lookup_event_start.
  - rewrite panic_entry_field by done. apply lookup_event_duration.
Qed.

(** C8: the stack snapshot of the fault path is the first 2048 bytes of
    the traceback, so never longer than 2048 bytes, whatever the fault
    and however deep the stack. *)
Theorem stack_snapshot_bounded (next : HandlerFunc) (s s' : State) (v : any) :
  next s = (Panicked v, s') → v ≠ ANil →
  ∃ (e : logrus.Entry) (text : string),
    sink (RecoveryWithLoggerMiddleware next s).2 = sink s' ++ [e] ∧
    logrus.Data e !! "error.stack_trace" = Some (AString text) ∧
    text = str_take 2048 (traceback s') ∧
    (String.length text ≤ 2048)%nat.
Proof.
  intros Hnext Hv. rewrite (recovery_on_fault _ _ _ _ Hnext Hv).
  cbn [snd sink]. exists (panic_entry v s'), (str_take 2048 (traceback s')).
  split_and!.
  - done.
  - apply panic_entry_stack_trace.
  - done.
  - rewrite length_str_take. lia.
Qed.

(** C9: when the chain returns without a fault the middleware does
    nothing that can be observed: it returns with the state the chain
    left, so no entry is logged and status and body are untouched. *)
Theorem recovery_silent_on_normal_return (next : HandlerFunc) (s s' : State) :
  next s = (Returned, s') →
  RecoveryWithLoggerMiddleware next s = (Returned, s') ∧
  sink (RecoveryWithLoggerMiddleware next s).2 = sink s' ∧
  gin.Writer (ctx (RecoveryWithLoggerMiddleware next s).2) = gin.Writer (ctx s').
Proof.
  intros Hnext. unfold RecoveryWithLoggerMiddleware. by rewrite Hnext.
Qed.

End Recovery.

(** ** The request logger *)

Section RequestLogger.
Context `{Platform}.

Lemma errors_from_mentions (err : gin.Error) (a : list gin.Error) (i : nat) :
  err ∈ a → substring_of (gin.Err err) (gin.errors_from i a).
Proof.
  revert i. induction a as [|msg rest IH]; intros i Hin.
  - by apply elem_of_nil in Hin.
  - apply elem_of_cons in Hin as [-> | Hin]; cbn [gin.errors_from].
    + exists ("Error #" +:+ appendInt (Z.of_nat (S i)) 2 +:+ ": ").
      eexists. by rewrite !string_app_assoc.
    + do 6 apply substring_of_app_r. by apply IH.
Qed.

(** The entry the logger keeps for a request, before level and message. *)
Lemma request_entry_data (start : Time) (s : State) :
  let c := ctx s in
  let fields := (generateLogFields start s).1 in
  let entry := logrus.Logger_WithFields fields in
  logrus.Data
    match gin.Get c UserClaimsKey with
    | Some user =>
        match assert_map user with
        | Some userMap =>
            match assert_string (userMap !! "UserID") with
            | Some userID =>
                logrus.WithField "user.id" (AString userID) (logrus.WithContext entry)
            | None => entry
            end
        | None => entry
        end
    | None => entry
    end = fields.
Proof.
  cbv zeta. pose proof (lookup_user_id start s) as Hid.
  unfold gin.Get, UserClaimsKey.
  destruct (gin.Keys (ctx s) !! "userClaims") as [[| | | | |m|]|]; try done.
  cbn [assert_map].
  destruct (m !! "UserID") as [[| uid | | | | |]|]; try done.
  cbn [assert_string].
  unfold logrus.WithField, logrus.WithFields, logrus.WithContext, logrus.Logger_WithFields;
    cbn [logrus.Data].
  rewrite <- insert_union_singleton_l. by apply insert_id.
Qed.

Lemma GinLogrus_returned (next : HandlerFunc) (s s' : State) :
  next (time_Now s).2 = (Returned, s') →
  ∃ e : logrus.Entry,
    GinLogrus next s =
      (Returned,
       {| ctx := ctx s'; sink := sink s' ++ [e]; ticks := S (S (ticks s'));
          goid := goid s'; frames := frames s' |}) ∧
    logrus.Data e = (generateLogFields (time_Now s).1 s').1 ∧
    (logrus.Level_ e, logrus.Message e) =
      if (0 <? length (gin.Errors (ctx s')))%nat
      then (logrus.ErrorLevel, "Request failed: " +:+ gin.Errors_String (gin.Errors (ctx s')))
      else (logrus.InfoLevel, "Request processed successfully").
Proof.
  intros Hnext. unfold GinLogrus.
  change (time_Now s) with ((time_Now s).1, (time_Now s).2).
  cbv beta iota. rewrite Hnext. cbn [fst].
  unfold mbind, M_bind.
  pose proof (generateLogFields_state (time_Now s).1 s') as Hstate.
  pose proof (request_entry_data (time_Now s).1 s') as Hdata. cbv zeta in Hdata.
  destruct (generateLogFields (time_Now s).1 s') as [fields s1].
  cbn [fst snd] in Hstate, Hdata. subst s1.
  unfold get_ctx; cbn [ctx].
  set (entry := match gin.Get (ctx s') UserClaimsKey with Some _ => _ | None => _ end) in *.
  destruct (0 <? length (gin.Errors (ctx s')))%nat;
    unfold Log; cbn [snd ctx sink ticks goid frames];
    eexists; (split; [reflexivity |]); by rewrite <- Hdata.
Qed.

(** C2 (as the code has it): for a request whose chain returns
    without a fault the logger receives exactly one more entry, never
    none and never two, carrying the extracted field set; the
    exchange is left as the chain left it. With one or more recorded
    errors the entry is at error level and its message is "Request
    failed: " followed by the rendering of all recorded errors in one
    string, so the text of each is in it; with none the entry is at
    info level and its message is "Request processed successfully". *)
Theorem request_logged_exactly_once (next : HandlerFunc) (s s' : State) :
  next (time_Now s).2 = (Returned, s') →
  let errs := gin.Errors (ctx s') in
  ∃ e : logrus.Entry,
    GinLogrus next s =
      (Returned,
       {| ctx := ctx s'; sink := sink s' ++ [e]; ticks := S (S (ticks s'));
          goid := goid s'; frames := frames s' |}) ∧
    logrus.Data e = (generateLogFields (time_Now s).1 s').1 ∧
    (errs ≠ [] →
       logrus.Level_ e = logrus.ErrorLevel ∧
       logrus.Message e = "Request failed: " +:+ gin.Errors_String errs ∧
       substring_of (gin.Errors_String errs) (logrus.Message e) ∧
       ∀ err : gin.Error, err ∈ errs → substring_of (gin.Err err) (logrus.Message e)) ∧
    (errs = [] →
       logrus.Level_ e = logrus.InfoLevel ∧
       logrus.Message e = "Request processed successfully").
Proof.
  intros Hnext. cbv zeta.
  destruct (GinLogrus_returned next s s' Hnext) as (e & Hrun & Hdata & Hlog).
  exists e. split_and!; [done | done | |].
  - intros Herrs. destruct (gin.Errors (ctx s')) as [|e0 rest] eqn:E; [done |].
    cbn [length Nat.ltb Nat.leb] in Hlog. injection Hlog as -> ->.
    split_and!; [done | done | |].
    + apply substring_of_app_r, substring_of_refl.
    + intros err Hin. apply substring_of_app_r. by apply errors_from_mentions.
  - intros Herrs. rewrite Herrs in Hlog. by injection Hlog as -> ->.
Qed.
End RequestLogger.

(** ** Timing attributes *)

Section Timing.
Context `{Platform}.

Lemma Sub_of_readings (a b : Reading) :
  Sub (time_of b) (time_of a) = saturate (mono_ns b - mono_ns a).
Proof. reflexivity. Qed.

Lemma millis_bracket (n : Z) : n - 1000000 < n / 1000000 * 1000000 ≤ n.
Proof.
  pose proof (Z.div_mod n 1000000 ltac:(lia)).
  pose proof (Z.mod_pos_bound n 1000000 ltac:(lia)). lia.
Qed.

(** Time measured between two readings of a clock that does not run
    backwards is not negative. *)
Lemma elapsed_nonneg (i j : nat) :
  monotone_clock → (i ≤ j)%nat → 0 ≤ Sub (time_of (clock j)) (time_of (clock i)).
Proof.
  intros Hmono Hij. rewrite Sub_of_readings.
  apply saturate_nonneg. specialize (Hmono i j Hij). lia.
Qed.

(** C6 (as the code has it): when the start time was read from the
    clock no later than the extraction begins, and the monotonic clock
    does not run backwards, [event.duration] is the difference of two
    monotonic readings, not negative, given in seconds. [event.start]
    and [event.end] print wall clock readings, the second one taken at
    a later call than the one that ends the duration: when the wall
    clock advanced in step with the monotonic clock between them and
    the zone offset stayed the same, their distance is the duration
    plus the time between those two calls, to within a millisecond. *)
Theorem duration_from_monotonic_clock (i : nat) (s : State) :
  monotone_clock → (i ≤ ticks s)%nat →
  let start := clock i in
  let now1 := clock (ticks s) in
  let now2 := clock (S (ticks s)) in
  let fields := (generateLogFields (time_of start) s).1 in
  ∃ d : Z,
    fields !! "event.duration" = Some (ASeconds d) ∧
    fields !! "event.start" = Some (AString (render_millis (local_millis (time_of start)))) ∧
    fields !! "event.end" = Some (AString (render_millis (local_millis (time_of now2)))) ∧
    d = saturate (mono_ns now1 - mono_ns start) ∧
    0 ≤ d ∧ (0 <= Seconds d)%Q ∧
    (wall_ns (time_of now2) - wall_ns (time_of start) = mono_ns now2 - mono_ns start →
     Local (wall_sec now2) = Local (wall_sec start) →
     mono_ns now1 - mono_ns start ≤ maxDuration →
     Z.abs ((local_millis (time_of now2) - local_millis (time_of start)) * 1000000
            - d - (mono_ns now2 - mono_ns now1)) < timer_resolution).
Proof.
  intros Hmono Hi. cbv zeta.
  exists (saturate (mono_ns (clock (ticks s)) - mono_ns (clock i))).
  pose proof (Hmono i (ticks s) Hi) as Hle.
  pose proof (elapsed_nonneg i (ticks s) Hmono Hi) as Hd.
  rewrite Sub_of_readings in Hd.
  split_and!.
  - by rewrite lookup_event_duration, Sub_of_readings.
  - apply lookup_event_start.
  - apply lookup_event_end.
  - done.
  - done.
  - unfold Seconds, Qle; cbn [Qnum Qden]. lia.
  - intros Hwall Hzone Hrange.
    rewrite saturate_id by (unfold minDuration, maxDuration in *; lia).
    unfold local_millis, local_sec, wall_ns, time_of in *; cbn [unix_sec nsec loc] in *.
    rewrite Hzone.
    pose proof (millis_bracket (wall_nsec (clock (S (ticks s))))).
    pose proof (millis_bracket (wall_nsec (clock i))).
    unfold timer_resolution. lia.
Qed.
End Timing.

(** ** Timing in the two middlewares *)

Section MiddlewareTiming.
Context `{Platform}.

(** The request logger reads the start time before the chain runs, so
    its entry has a duration that is not negative, provided the chain
    hands the clock on as it goes (a handler can read the clock, not
    unread it). *)
Lemma request_log_duration_nonneg (next : HandlerFunc) (s s' : State) :
  monotone_clock →
  next (time_Now s).2 = (Returned, s') →
  (ticks s ≤ ticks s')%nat →
  ∃ (e : logrus.Entry) (d : Z),
    sink (GinLogrus next s).2 = sink s' ++ [e] ∧
    logrus.Data e !! "event.duration" = Some (ASeconds d) ∧ 0 ≤ d.
Proof.
  intros Hmono Hnext Hticks.
  destruct (GinLogrus_returned next s s' Hnext) as (e & Hrun & Hdata & _).
  exists e, (Sub (time_of (clock (ticks s'))) (time_of (clock (ticks s)))).
  split_and!.
  - by rewrite Hrun.
  - rewrite Hdata. apply lookup_event_duration.
  - by apply elapsed_nonneg.
Qed.

(** The recovery middleware reads the start time when it catches the
    fault, so the duration of its entry is not negative either. *)
Lemma panic_log_duration_nonneg (next : HandlerFunc) (s s' : State) (v : any) :
  monotone_clock →
  next s = (Panicked v, s') → v ≠ ANil →
  ∃ (e : logrus.Entry) (d : Z),
    sink (RecoveryWithLoggerMiddleware next s).2 = sink s' ++ [e] ∧
    logrus.Data e !! "event.duration" = Some (ASeconds d) ∧ 0 ≤ d.
Proof.
  intros Hmono Hnext Hv. rewrite (recovery_on_fault _ _ _ _ Hnext Hv).
  cbn [snd sink].
  exists (panic_entry v s'),
    (Sub (time_of (clock (S (ticks s')))) (time_of (clock (ticks s')))).
  split_and!.
  - done.
  - rewrite panic_entry_field by done. apply lookup_event_duration.
  - apply elapsed_nonneg; [done | lia].
Qed.

End MiddlewareTiming.

(** * Runs on sample requests *)

Example Format_layout_epoch :
  Format (mkTime 0 0 None UTC) = "1970-01-01T00:00:00.000Z".
Proof. reflexivity. Qed.

Example Format_truncates_to_millis :
  Format (mkTime 1705320000 250999999 None UTC) = "2024-01-15T12:00:00.250Z".
Proof. reflexivity. Qed.

Example Format_leap_day :
  Format (mkTime 1709251199 5000000 None UTC) = "2024-02-29T23:59:59.005Z".
Proof. reflexivity. Qed.

Example splitHostPort_samples :
  url.splitHostPort "example.com:8080" = ("example.com", "8080") ∧
  url.splitHostPort "[::1]:80" = ("::1", "80") ∧
  url.splitHostPort "example.com" = ("example.com", "") ∧
  url.splitHostPort "" = ("", "").
Proof. split_and!; reflexivity. Qed.

Example Errors_String_sample :
  gin.Errors_String [gin.mkError "bad" None; gin.mkError "worse" (Some "m")] =
    "Error #01: bad" +:+ newline +:+ "Error #02: worse" +:+ newline
    +:+ "     Meta: m" +:+ newline.
Proof. reflexivity. Qed.

(** GET https://api.example.com/v1/items?x=1 answered with status 200
    and 512 bytes, no identity, no errors: one info entry. *)
Example scenario_plain_request :
  let r := GinLogrus (H := utc_platform) (answers 512) fresh_state in
  (λ e, (logrus.Level_ e,
         logrus.Data e !! "http.request.method", logrus.Data e !! "url.scheme",
         logrus.Data e !! "url.path", logrus.Data e !! "url.query",
         logrus.Data e !! "http.response.status_code",
         logrus.Data e !! "http.response.body.bytes",
         logrus.Data e !! "user.id")) <$> sink r.2
  = [(logrus.InfoLevel,
      Some (AString "GET"), Some (AString "https"),
      Some (AString "/v1/items"), Some (AString "x=1"),
      Some (AInt 200), Some (AInt 512), None)].
Proof. vm_compute. reflexivity. Qed.

(** The same request with the identity map {"UserID": "abc-123"}. *)
Example scenario_identity :
  let claims := AMap {[ "UserID" := AString "abc-123" ]} in
  let r := with_claims claims (GinLogrus (H := utc_platform) (answers 512)) fresh_state in
  (λ e, logrus.Data e !! "user.id") <$> sink r.2 = [Some (AString "abc-123")].
Proof. vm_compute. reflexivity. Qed.

(** Claims stored as a named map type (gin.H) do not pass the type
    assertion. *)
Example scenario_named_map :
  let claims := ANamed "gin.H" (AMap {[ "UserID" := AString "abc-123" ]}) in
  let r := with_claims claims (GinLogrus (H := utc_platform) (answers 512)) fresh_state in
  (λ e, logrus.Data e !! "user.id") <$> sink r.2 = [None].
Proof. vm_compute. reflexivity. Qed.

(** A handler that panics with "division by zero" under both
    middlewares: one error entry, status 500, no body byte; the
    logger's own middleware logs nothing. The entry records the status
    as it was before the abort. *)
Example scenario_panic :
  let next := GinLogrus (H := utc_platform) (panics (AString "division by zero")) in
  let r := RecoveryWithLoggerMiddleware (H := utc_platform) next fresh_state in
  r.1 = Returned ∧
  (λ e, (logrus.Level_ e, logrus.Message e, logrus.Data e !! "error.message",
         logrus.Data e !! "http.response.status_code")) <$> sink r.2
  = [(logrus.ErrorLevel, "A panic occurred", Some (AString "division by zero"),
      Some (AInt 200))] ∧
  gin.Writer (ctx r.2) = {| gin.size := 0; gin.status := 500 |}.
Proof. cbv zeta. split_and!; vm_compute; reflexivity. Qed.

(** ** Inputs on which the specification's wording fails *)


(** C2, as stated, fails on the spelling of the success message: the
    code logs "Request processed successfully", with a capital R. *)
Lemma request_log_counterexample :
  let r := GinLogrus (H := utc_platform) (answers 512) fresh_state in
  ¬ request_log_as_stated (H := utc_platform) (answers 512) fresh_state ∧
  (λ e, (logrus.Level_ e, logrus.Message e)) <$> sink r.2
    = [(logrus.InfoLevel, "Request processed successfully")].
Proof.
  cbv zeta. split.
  - intros Hc. destruct (Hc _ eq_refl) as (e & Hsink & _ & _ & Hinfo).
    destruct (Hinfo eq_refl) as [_ Hmsg].
    vm_compute in Hsink. injection Hsink as <-. vm_compute in Hmsg. discriminate Hmsg.
  - vm_compute. reflexivity.
Qed.

(** C6, as stated, fails: the wall clock is set back ten seconds
    between the reading of the start time and the extraction. The
    duration is one second by the monotonic clock while [event.end]
    prints an instant eight seconds before [event.start]. *)
Lemma timing_counterexample :
  let s := at_tick 1 fresh_state in
  let fields := (generateLogFields (H := stepped_platform) (time_of (H := stepped_platform) (stepped_clock 0)) s).1 in
  ¬ timing_as_stated (H := stepped_platform) 0 s ∧
  fields !! "event.duration" = Some (ASeconds 1000000000) ∧
  fields !! "event.start" = Some (AString "2024-01-15T12:00:10.000Z") ∧
  fields !! "event.end" = Some (AString "2024-01-15T12:00:02.000Z").
Proof.
  cbv zeta. split_and!.
  - intros (d & ms & me & Hd & _ & _ & -> & -> & _ & Habs).
    rewrite (lookup_event_duration (H := stepped_platform)) in Hd.
    injection Hd as <-. vm_compute in Habs. by apply Habs.
  - vm_compute. reflexivity.
  - vm_compute. reflexivity.
  - vm_compute. reflexivity.
Qed.

(** C5 fails on the code: on a host one hour east of UTC a start time
    whose UTC form is 2024-01-15T12:00:00.250Z is printed as
    2024-01-15T13:00:00.250Z, the local clock face with the layout's
    literal Z after it; [event.end] likewise. *)
Theorem timestamps_follow_local_zone :
  let start := time_of (H := paris_platform) (steady_clock 0) in
  let fields := (generateLogFields (H := paris_platform) start (at_tick 1 fresh_state)).1 in
  Format (Time_UTC start) = "2024-01-15T12:00:00.250Z" ∧
  fields !! "event.start" = Some (AString "2024-01-15T13:00:00.250Z") ∧
  Format (Time_UTC (time_of (H := paris_platform) (steady_clock 2))) = "2024-01-15T12:00:02.250Z" ∧
  fields !! "event.end" = Some (AString "2024-01-15T13:00:02.250Z").
Proof. cbv zeta. split_and!; vm_compute; reflexivity. Qed.

(** ** The theorems at sample requests *)

Lemma steady_clock_monotone : monotone_clock (H := utc_platform).
Proof.
  intros a b Hab. unfold clock, utc_platform, steady_clock; cbn [mono_ns]. lia.
Qed.


(** A handler records the error "no such item" and returns. *)
Lemma request_logged_exactly_once_witness :
  let next := records_error "no such item" in
  let s' := (next (time_Now (H := utc_platform) fresh_state).2).2 in
  next (time_Now (H := utc_platform) fresh_state).2 = (Returned, s') ∧
  ∃ e : logrus.Entry,
    sink (GinLogrus (H := utc_platform) next fresh_state).2 = [e] ∧
    logrus.Level_ e = logrus.ErrorLevel ∧
    substring_of "no such item" (logrus.Message e).
Proof.
  cbv zeta.
  assert (Hnext : records_error "no such item" (time_Now (H := utc_platform) fresh_state).2
                  = (Returned,
                     (records_error "no such item"
                        (time_Now (H := utc_platform) fresh_state).2).2))
    by reflexivity.
  destruct (request_logged_exactly_once (H := utc_platform) _ _ _ Hnext)
    as (e & Hrun & _ & Herr & _).
  destruct (Herr ltac:(discriminate)) as (Hlevel & _ & _ & Hin).
  split; [exact Hnext |].
  exists e. split_and!.
  - rewrite Hrun. reflexivity.
  - exact Hlevel.
  - apply (Hin (gin.mkError "no such item" None)). apply list_elem_of_here.
Defined.

(** The start time is the first reading of a steady clock, the
    extraction begins at the second. *)
Lemma duration_from_monotonic_clock_witness :
  (monotone_clock (H := utc_platform) ∧ (0 ≤ ticks (at_tick 1 fresh_state))%nat) ∧
  ∃ d : Z,
    (generateLogFields (H := utc_platform) (time_of (H := utc_platform) (steady_clock 0))
       (at_tick 1 fresh_state)).1 !! "event.duration" = Some (ASeconds d) ∧
    0 ≤ d.
Proof.
  assert (Hi : (0 ≤ ticks (at_tick 1 fresh_state))%nat) by (cbn; lia).
  destruct (duration_from_monotonic_clock (H := utc_platform) 0 (at_tick 1 fresh_state)
              steady_clock_monotone Hi)
    as (d & Hd & _ & _ & _ & Hpos & _).
  split; [split; [exact steady_clock_monotone | exact Hi] |].
  exists d. split; assumption.
Defined.

(** A handler panics four seconds into the request. *)
Lemma panic_timed_from_catch_witness :
  let next := writes_then_panics 5 (AError "index out of range") in
  let s := at_tick 4 fresh_state in
  (next s = (Panicked (AError "index out of range"), (next s).2) ∧
   AError "index out of range" ≠ ANil) ∧
  ∃ e : logrus.Entry,
    sink (RecoveryWithLoggerMiddleware (H := utc_platform) next s).2 = [e] ∧
    logrus.Data e !! "event.start" = Some (AString "2024-01-15T12:00:04.250Z") ∧
    logrus.Data e !! "event.duration" = Some (ASeconds 1000000000).
Proof.
  cbv zeta.
  assert (Hnext : writes_then_panics 5 (AError "index out of range") (at_tick 4 fresh_state)
                  = (Panicked (AError "index out of range"),
                     (writes_then_panics 5 (AError "index out of range")
                        (at_tick 4 fresh_state)).2)) by reflexivity.
  assert (Hv : AError "index out of range" ≠ ANil) by discriminate.
  destruct (panic_timed_from_catch (H := utc_platform) _ _ _ _ Hnext Hv)
    as (e & Hsink & _ & Hstart & Hdur).
  split; [split; [exact Hnext | exact Hv] |].
  exists e. split_and!; assumption.
Defined.

(** A handler panics with "division by zero". *)
Lemma stack_snapshot_bounded_witness :
  let next := panics (AString "division by zero") in
  (next fresh_state = (Panicked (AString "division by zero"), fresh_state) ∧
   AString "division by zero" ≠ ANil) ∧
  ∃ (e : logrus.Entry) (text : string),
    sink (RecoveryWithLoggerMiddleware (H := utc_platform) next fresh_state).2 = [e] ∧
    logrus.Data e !! "error.stack_trace" = Some (AString text) ∧
    (String.length text ≤ 2048)%nat.
Proof.
  cbv zeta.
  assert (Hnext : panics (AString "division by zero") fresh_state
                  = (Panicked (AString "division by zero"), fresh_state)) by reflexivity.
  assert (Hv : AString "division by zero" ≠ ANil) by discriminate.
  destruct (stack_snapshot_bounded (H := utc_platform) _ _ _ _ Hnext Hv)
    as (e & text & Hsink & Htrace & _ & Hlen).
  split; [split; [exact Hnext | exact Hv] |].
  exists e, text. split_and!; assumption.
Defined.

(** A handler answers 200 with 512 bytes. *)
Lemma recovery_silent_on_normal_return_witness :
  answers 512 fresh_state = (Returned, (answers 512 fresh_state).2) ∧
  RecoveryWithLoggerMiddleware (H := utc_platform) (answers 512) fresh_state
    = (Returned, (answers 512 fresh_state).2).
Proof.
  assert (Hnext : answers 512 fresh_state = (Returned, (answers 512 fresh_state).2))
    by reflexivity.
  split; [exact Hnext |].
  exact (proj1 (recovery_silent_on_normal_return (H := utc_platform) _ _ _ Hnext)).
Defined.
